(** * Thursday Sniper: a shallow embedding of [app.py]

    The program is one Streamlit script.  Streamlit runs it from top to
    bottom on every user interaction; the only thing that survives from one
    run to the next is the resource cache that holds the result of
    [load_model].

    Numbers.  The script computes on floats: binary64 from the widgets,
    float32 from the regressor on.  Two readings are kept apart.

    - The script as a whole is read on the real numbers [R] of the
      Standard Library.  This reading carries the statements that rest on
      what is exact on floats: absolute value, negation, comparison with a
      constant, passing a value on.  It says nothing on rounding, overflow
      or NaN.
    - The arithmetic of steps 2 and 4 (the target and the band of 18 pips
      around it) is read on IEEE binary32 in the module [F32]; the
      statements on what the band is worth are made there.

    The week number is a Python int and stays a [Z].

    Effects.  A run renders a sequence of elements and may stop early
    ([st.stop]) or raise.  It is modelled by a writer monad with an
    outcome, [script]; the call to the regressor is logged next to the
    rendered elements so that statements about "no inference" can be made
    on the log.  Layout containers (sidebar, expanders, columns) carry no
    data the statements need and are flattened. *)

From Stdlib Require Import Reals Lra Lia ZArith List String Ascii.
From Stdlib Require Import QArith Qreals SpecFloat.
Import ListNotations.

Open Scope string_scope.
Open Scope R_scope.

(** ** Python values *)

(** A cell of the one-row data frame: seven floats and one int. *)
Inductive cell : Type :=
| PyFloat (x : R)
| PyInt (n : Z).

(** [x > y] and [x < y] on floats, as booleans. *)
Definition Rgtb (x y : R) : bool := if Rgt_dec x y then true else false.
Definition Rltb (x y : R) : bool := if Rlt_dec x y then true else false.

Infix ">?" := Rgtb (at level 70, no associativity) : R_scope.
Infix "<?" := Rltb (at level 70, no associativity) : R_scope.

(** The double quote, for HTML attributes inside string literals. *)
Definition dq : string := String "034"%char EmptyString.

(** ** The libraries the script calls *)

Module pd.

Record DataFrame : Type := mkDataFrame
  { data : list (list cell);
    columns : list string }.

End pd.

Module np.

(** [np.expm1] in exact arithmetic: exp(x) - 1, the number that NumPy's
    float32 result approximates.  The float32 reading of the call is
    [F32.pred_pips]. *)
Definition expm1 (x : R) : R := exp x - 1.

End np.

Module xgb.

(** A fitted regressor is opaque: it gives one score per row, and may
    look at the column names.  A regressor that refuses the frame (other
    feature names than the ones it was fitted on) raises inside the
    library; such artifacts are not covered. *)
Record XGBRegressor : Type := mkXGBRegressor
  { score : list string -> list cell -> R }.

Definition predict (m : XGBRegressor) (df : pd.DataFrame) : list R :=
  map (score m (pd.columns df)) (pd.data df).

End xgb.

Module st.

(** What the page shows.  [number_input], [selectbox] and [button] record
    the widget as the script declares it (label and default); the value
    the user left in it is an input of the run.  [metric] keeps the
    number the script formats, before the formatting: the page itself
    carries that number printed with zero decimals and the unit "Pips",
    and the printing is not modelled. *)
Inductive element : Type :=
| set_page_config (page_title page_icon layout : string)
| markdown (body : string)
| title (body : string)
| caption (body : string)
| error (body : string)
| header (body : string)
| info (body : string)
| warning (body : string)
| number_input (label : string) (value : R)
| selectbox (label : string) (options : list Z) (index : nat)
| button (label : string)
| metric (label : string) (pips : R) (delta : option string).

End st.

(** ** Runs of the script *)

(** One entry of the log of a run. *)
Inductive effect : Type :=
| Render (e : st.element)
| Predict (df : pd.DataFrame).

(** How a run, or a part of it, ends. *)
Inductive outcome (A : Type) : Type :=
| Done (a : A)
| Stopped
| Raised (exn : string).

Arguments Done {A} a.
Arguments Stopped {A}.
Arguments Raised {A} exn.

Definition script (A : Type) : Type := (list effect * outcome A)%type.

Definition ret {A : Type} (a : A) : script A := ([], Done a).

Definition bind {A B : Type} (m : script A) (k : A -> script B) : script B :=
  match m with
  | (log, Done a) => let (log', r) := k a in ((log ++ log')%list, r)
  | (log, Stopped) => (log, Stopped)
  | (log, Raised exn) => (log, Raised exn)
  end.

Declare Scope script_scope.
Delimit Scope script_scope with script.
Notation "x <- m ;; k" := (bind m (fun x => k))
  (at level 61, m at next level, right associativity) : script_scope.
Notation "m ;; k" := (bind m (fun _ => k))
  (at level 61, right associativity) : script_scope.
Open Scope script_scope.

Definition render (e : st.element) : script unit := ([Render e], Done tt).
Definition stop : script unit := ([], Stopped).
Definition raise {A : Type} (exn : string) : script A := ([], Raised exn).

Definition trace {A : Type} (m : script A) : list effect := fst m.
Definition result {A : Type} (m : script A) : outcome A := snd m.

(** ** LOAD MODEL *)

(** [artifact] is what reading "thursday_model.json" gives at the moment of
    the call: [None] when the file is absent or does not deserialize, in
    which case [model.load_model] raises and the bare [except] catches. *)
Definition load_model (artifact : option xgb.XGBRegressor)
  : option xgb.XGBRegressor * bool :=
  match artifact with
  | Some model => (Some model, true)
  | None => (None, false)
  end.

(** [@st.cache_resource]: the first call in the process runs the function
    and stores what it returned; later calls return the stored value. *)
Definition cache_resource {A : Type} (cache : option A) (call : A)
  : A * option A :=
  match cache with
  | Some v => (v, cache)
  | None => (call, Some call)
  end.

(** ** SIDEBAR INPUTS *)

(** The values the widgets return in one run.  The ADR box is the only one
    whose default the script computes, so it keeps the user's entry. *)
Record inputs : Type := mkInputs
  { r_mon : R;
    b_mon_raw : R;
    r_tue : R;
    b_tue_raw : R;
    r_wed : R;
    b_wed : R;
    adr_entry : option R;
    week_num : Z;
    predict_btn : bool }.

(** The mean of the three ranges, in exact arithmetic. *)
Definition est_adr (w : inputs) : R := (r_mon w + r_tue w + r_wed w) / 3.

Definition adr_val (w : inputs) : R :=
  match adr_entry w with
  | Some v => v
  | None => est_adr w
  end.

(** The page as first shown: every widget at its default, button idle. *)
Definition default_inputs : inputs :=
  {| r_mon := 60; b_mon_raw := 10;
     r_tue := 70; b_tue_raw := -20;
     r_wed := 55; b_wed := 30;
     adr_entry := None; week_num := 2; predict_btn := false |}.

(** Every widget is taken to return.  ([st.number_input] raises on a
    default that is not a finite number, which the binary64 mean of very
    large ranges can be; such pages are not covered.) *)
Definition sidebar (w : inputs) : script unit :=
  render (st.header "📝 Weekly Data Input") ;;
  render (st.info "Enter data from Mon-Wed Close") ;;
  render (st.number_input "Mon Range (Pips)" 60) ;;
  render (st.number_input "Mon Body (Close-Open)" 10) ;;
  render (st.number_input "Tue Range (Pips)" 70) ;;
  render (st.number_input "Tue Body (Close-Open)" (-20)) ;;
  render (st.number_input "Wed Range (Pips)" 55) ;;
  render (st.number_input "Wed Body (Absolute Pips)" 30) ;;
  render (st.markdown "---") ;;
  render (st.number_input "ADR (5 Days)" (est_adr w)) ;;
  render (st.selectbox "Week of Month" [1; 2; 3; 4]%Z 1) ;;
  render (st.button "🦅 SNIPE TARGET").

(** ** MAIN LOGIC *)

(** *** 1. Calculate Inputs *)

Definition features : list string :=
  [ "Range_Monday"; "Range_Tuesday"; "Range_Wednesday";
    "Body_Monday"; "Body_Tuesday"; "Body_Wednesday";
    "ADR_5_Wednesday"; "Week_Num_Wednesday" ].

Definition input_df (w : inputs) : pd.DataFrame :=
  let b_mon := Rabs (b_mon_raw w) in
  let b_tue := Rabs (b_tue_raw w) in
  pd.mkDataFrame
    [[ PyFloat (r_mon w); PyFloat (r_tue w); PyFloat (r_wed w);
       PyFloat b_mon; PyFloat b_tue; PyFloat (b_wed w);
       PyFloat (adr_val w); PyInt (week_num w) ]]
    features.

(** *** 2. Predict (Log -> Exp) *)

(** [model.predict(input_df)[0]]: the call is logged; an empty array makes
    the subscript raise, and so does a model that is [None]. *)
Definition pred_log (model : option xgb.XGBRegressor) (df : pd.DataFrame)
  : script R :=
  match model with
  | None => raise "AttributeError"
  | Some m =>
      match xgb.predict m df with
      | y :: _ => ([Predict df], Done y)
      | [] => ([Predict df], Raised "IndexError")
      end
  end.

(** *** 3. Determine Bias *)

Definition bias_score (b_mon_raw b_tue_raw : R) : Z :=
  let bias_score := 0%Z in
  let bias_score :=
    if b_mon_raw >? 0 then (bias_score + 1)%Z else bias_score in
  let bias_score :=
    if b_tue_raw >? 0 then (bias_score + 1)%Z else bias_score in
  let bias_score :=
    if b_mon_raw <? 0 then (bias_score - 1)%Z else bias_score in
  let bias_score :=
    if b_tue_raw <? 0 then (bias_score - 1)%Z else bias_score in
  bias_score.

Definition BULLISH : string := "🟢 BULLISH (Buy Dips)".
Definition BEARISH : string := "🔴 BEARISH (Sell Rallies)".
Definition NEUTRAL : string := "🟡 NEUTRAL / CHOPPY".

(** The pair (bias_text, bias_color) the if/elif/else assigns. *)
Definition bias (bias_score : Z) : string * string :=
  if (bias_score >=? 1)%Z then (BULLISH, "#4ade80")
  else if (bias_score <=? -1)%Z then (BEARISH, "#f87171")
  else (NEUTRAL, "#facc15").

Definition bias_text (w : inputs) : string :=
  fst (bias (bias_score (b_mon_raw w) (b_tue_raw w))).

Definition bias_color (w : inputs) : string :=
  snd (bias (bias_score (b_mon_raw w) (b_tue_raw w))).

(** *** 4. Display Results *)

(** The band in exact arithmetic; [F32.safe_zone] and [F32.max_zone] are
    the same two lines on float32. *)
Definition median_error : R := 18.

Definition safe_zone (pred_pips : R) : R := pred_pips - median_error.
Definition max_zone (pred_pips : R) : R := pred_pips + median_error.

Definition HIGH_VOLATILITY : string :=
  "🔥 HIGH VOLATILITY ALERT: Wide Stops Required!".
Definition LOW_VOLATILITY : string :=
  "💤 Low Volatility Expected. Scalping conditions.".

(** The closing if/elif: at most one advisory. *)
Definition advisory (pred_pips : R) : script unit :=
  if pred_pips >? 100 then render (st.warning HIGH_VOLATILITY)
  else if pred_pips <? 60 then render (st.info LOW_VOLATILITY)
  else ret tt.

Definition card_open : string := "<div class=" ++ dq ++ "card" ++ dq ++ ">".
Definition card_open_green : string :=
  "<div class=" ++ dq ++ "card" ++ dq ++ " style=" ++ dq
  ++ "border: 1px solid #4ade80;" ++ dq ++ ">".
Definition card_close : string := "</div>".

Definition display (w : inputs) (pred_pips : R) : script unit :=
  render (st.markdown "---") ;;
  render (st.markdown "### 🧭 Direction Bias") ;;
  render (st.markdown ("<h3 style='color:" ++ bias_color w ++ ";'>"
                       ++ bias_text w ++ "</h3>")) ;;
  render (st.markdown "### 📊 Market Context") ;;
  render (st.metric "ADR Strength" (adr_val w) None) ;;
  render (st.markdown "### 🎯 Volatility Targets") ;;
  render (st.markdown card_open) ;;
  render (st.metric "🛡️ SAFE BANKING" (safe_zone pred_pips)
            (Some "High Probability")) ;;
  render (st.markdown card_close) ;;
  render (st.markdown card_open_green) ;;
  render (st.metric "🦅 AI TARGET" pred_pips None) ;;
  render (st.markdown card_close) ;;
  render (st.markdown card_open) ;;
  render (st.metric "🚀 MAX EXTENSION" (max_zone pred_pips)
            (Some "Low Probability")) ;;
  render (st.markdown card_close) ;;
  advisory pred_pips.

Definition main_logic (model : option xgb.XGBRegressor) (w : inputs)
  : script unit :=
  y <- pred_log model (input_df w) ;;
  let pred_pips := np.expm1 y in
  display w pred_pips.

Definition welcome : script unit :=
  render (st.markdown "### 👋 Marhba ya Sniper!") ;;
  render (st.markdown "
    Use the sidebar on the left to enter Wednesday's closing data.
    The AI will calculate the optimal **Thursday Expansion Range**.

    **How to use:**
    1. Wait for Wednesday Candle Close.
    2. Input Mon/Tue/Wed Range & Body.
    3. Click **SNIPE**.
    ").

(** ** The whole script *)

Definition css : string := "
<style>
    .big-metric { font-size: 2.5em; font-weight: bold; color: #4ade80; }
    .risk-metric { font-size: 1.2em; color: #facc15; }
    .stApp { background-color: #0e1117; color: #fafafa; }
    .card { background-color: #262730; padding: 20px; border-radius: 10px; margin-bottom: 20px;}
</style>
".

Definition MODEL_NOT_FOUND : string :=
  "❌ Model not found! Please upload 'thursday_model.json' to the repository.".

(** The script body once [load_model()] has returned [(model, loaded)]. *)
Definition page (model : option xgb.XGBRegressor) (loaded : bool)
    (w : inputs) : script unit :=
  render (st.title "🦅 EURUSD Thursday Sniper") ;;
  render (st.caption "Quantum Volatility Predictor | AI-Powered by XGBoost") ;;
  (if negb loaded then render (st.error MODEL_NOT_FOUND) ;; stop
   else ret tt) ;;
  sidebar w ;;
  if predict_btn w then main_logic model w else welcome.

(** One run: the resource cache goes in and comes out. *)
Definition app (cache : option (option xgb.XGBRegressor * bool))
    (artifact : option xgb.XGBRegressor) (w : inputs)
  : option (option xgb.XGBRegressor * bool) * script unit :=
  let '((model, loaded), cache') :=
    cache_resource cache (load_model artifact) in
  (cache',
   render (st.set_page_config "Thursday Sniper 🦅" "🎯" "centered") ;;
   render (st.markdown css) ;;
   page model loaded w).

(** The life of the process: the script reruns once per interaction, each
    time with whatever is on disk then and whatever the widgets hold. *)
Fixpoint serve (cache : option (option xgb.XGBRegressor * bool))
    (runs : list (option xgb.XGBRegressor * inputs))
  : list (script unit) :=
  match runs with
  | [] => []
  | (artifact, w) :: rest =>
      let (cache', out) := app cache artifact w in
      out :: serve cache' rest
  end.

(** A process starts with an empty cache. *)
Definition process (runs : list (option xgb.XGBRegressor * inputs))
  : list (script unit) :=
  serve None runs.

(** ** Reading a log *)

(** The data frames handed to the regressor, in order. *)
Fixpoint predictions (log : list effect) : list pd.DataFrame :=
  match log with
  | [] => []
  | Predict df :: rest => df :: predictions rest
  | Render _ :: rest => predictions rest
  end.

(** The metrics shown, in order, as (label, number). *)
Fixpoint metrics (log : list effect) : list (string * R) :=
  match log with
  | [] => []
  | Render (st.metric label pips _) :: rest => (label, pips) :: metrics rest
  | _ :: rest => metrics rest
  end.

(** The bodies of the [st.warning] boxes and of the [st.info] boxes. *)
Fixpoint warnings (log : list effect) : list string :=
  match log with
  | [] => []
  | Render (st.warning body) :: rest => body :: warnings rest
  | _ :: rest => warnings rest
  end.

Fixpoint infos (log : list effect) : list string :=
  match log with
  | [] => []
  | Render (st.info body) :: rest => body :: infos rest
  | _ :: rest => infos rest
  end.

(** The markdown rendered right after the given heading. *)
Fixpoint markdown_after (heading : string) (log : list effect)
  : option string :=
  match log with
  | Render (st.markdown h) :: rest =>
      if String.eqb h heading then
        match rest with
        | Render (st.markdown body) :: _ => Some body
        | _ => None
        end
      else markdown_after heading rest
  | _ :: rest => markdown_after heading rest
  | [] => None
  end.

(** The number shown under a metric label. *)
Fixpoint lookup (label : string) (shown : list (string * R)) : option R :=
  match shown with
  | [] => None
  | (l, x) :: rest => if String.eqb l label then Some x else lookup label rest
  end.

Definition SAFE_BANKING : string := "🛡️ SAFE BANKING".
Definition AI_TARGET : string := "🦅 AI TARGET".
Definition MAX_EXTENSION : string := "🚀 MAX EXTENSION".
Definition DIRECTION_BIAS : string := "### 🧭 Direction Bias".

(** [load_model()] hands the script a usable model: either the cache holds
    one, or the cache is empty and the artifact loads. *)
Definition available (cache : option (option xgb.XGBRegressor * bool))
    (artifact : option xgb.XGBRegressor) (m : xgb.XGBRegressor) : Prop :=
  fst (cache_resource cache (load_model artifact)) = (Some m, true).

(** The row of features of a run and the score the regressor gives it. *)
Definition row (w : inputs) : list cell :=
  hd [] (pd.data (input_df w)).

Definition raw_score (m : xgb.XGBRegressor) (w : inputs) : R :=
  xgb.score m features (row w).

(** The log of the part of the page that comes before the inputs. *)
Definition preamble : list effect :=
  [ Render (st.set_page_config "Thursday Sniper 🦅" "🎯" "centered");
    Render (st.markdown css);
    Render (st.title "🦅 EURUSD Thursday Sniper");
    Render (st.caption "Quantum Volatility Predictor | AI-Powered by XGBoost") ].

(** What a run shows when there is no model. *)
Definition refusal : script unit :=
  ((preamble ++ [Render (st.error MODEL_NOT_FOUND)])%list, Stopped).

(** What step 4 renders before the advisory. *)
Definition displayed (w : inputs) (pred_pips : R) : list effect :=
  [ Render (st.markdown "---");
    Render (st.markdown DIRECTION_BIAS);
    Render (st.markdown ("<h3 style='color:" ++ bias_color w ++ ";'>"
                         ++ bias_text w ++ "</h3>"));
    Render (st.markdown "### 📊 Market Context");
    Render (st.metric "ADR Strength" (adr_val w) None);
    Render (st.markdown "### 🎯 Volatility Targets");
    Render (st.markdown card_open);
    Render (st.metric SAFE_BANKING (safe_zone pred_pips)
              (Some "High Probability"));
    Render (st.markdown card_close);
    Render (st.markdown card_open_green);
    Render (st.metric AI_TARGET pred_pips None);
    Render (st.markdown card_close);
    Render (st.markdown card_open);
    Render (st.metric MAX_EXTENSION (max_zone pred_pips)
              (Some "Low Probability"));
    Render (st.markdown card_close) ].

Definition SIDEBAR_NOTE : string := "Enter data from Mon-Wed Close".

(** ** The specification's vocabulary *)

(** What one signed body adds to the bias score, in the words of the
    specification: 1 when strictly positive, -1 when strictly negative,
    nothing when exactly 0. *)
Definition contribution (body : R) : Z :=
  match total_order_T body 0 with
  | inleft (left _) => (-1)%Z
  | inleft (right _) => 0%Z
  | inright _ => 1%Z
  end.

(** Two regressors with a constant score, for the examples. *)
Definition constant_model (y : R) : xgb.XGBRegressor :=
  xgb.mkXGBRegressor (fun _ _ => y).

(** The default page with the button pressed. *)
Definition default_click : inputs :=
  {| r_mon := 60; b_mon_raw := 10;
     r_tue := 70; b_tue_raw := -20;
     r_wed := 55; b_wed := 30;
     adr_entry := None; week_num := 2; predict_btn := true |}.

(** Another page: other ranges, ADR and week, the same two signed bodies. *)
Definition other_click : inputs :=
  {| r_mon := 45; b_mon_raw := 10;
     r_tue := 120; b_tue_raw := -20;
     r_wed := 80; b_wed := 5;
     adr_entry := Some 95; week_num := 4; predict_btn := true |}.

(** The same page with other figures in the two signed body boxes. *)
Definition with_bodies (w : inputs) (b_mon b_tue : R) : inputs :=
  {| r_mon := r_mon w; b_mon_raw := b_mon;
     r_tue := r_tue w; b_tue_raw := b_tue;
     r_wed := r_wed w; b_wed := b_wed w;
     adr_entry := adr_entry w; week_num := week_num w;
     predict_btn := predict_btn w |}.

(** ** The arithmetic on float32

    The regressor returns a float32, [np.expm1] of a float32 is a float32,
    and a float32 scalar combined with the Python float 18.0 stays a
    float32.  Steps 2 and 4 are read here on IEEE binary32, with the
    operations of the Standard Library's [SpecFloat] (round to nearest,
    ties to even).  A float32 is a [spec_float] that is [valid]. *)

Module F32.

Definition prec : Z := 24.
Definition emax : Z := 128.

Definition float32 : Type := spec_float.



(** The float32 nearest to a whole number. *)
Definition of_Z (n : Z) : float32 := binary_normalize prec emax n 0 false.



Definition add : float32 -> float32 -> float32 := SFadd prec emax.
Definition sub : float32 -> float32 -> float32 := SFsub prec emax.

(** [pred_pips = np.expm1(pred_log)].  What NumPy computes is library
    code; [expm1] stands for it. *)
Definition pred_pips (expm1 : float32 -> float32) (pred_log : float32)
  : float32 :=
  expm1 pred_log.

Definition median_error : float32 := of_Z 18.

Definition safe_zone (pred_pips : float32) : float32 :=
  sub pred_pips median_error.

Definition max_zone (pred_pips : float32) : float32 :=
  add pred_pips median_error.






End F32.

(** * Properties *)

(** ** Comparisons *)

Lemma Rgtb_spec (x y : R) : reflect (x > y) (x >? y).
Proof. unfold Rgtb; destruct (Rgt_dec x y); constructor; assumption. Qed.

Lemma Rltb_spec (x y : R) : reflect (x < y) (x <? y).
Proof. unfold Rltb; destruct (Rlt_dec x y); constructor; assumption. Qed.

Lemma contribution_cases (b : R) :
  (b < 0 /\ contribution b = (-1)%Z)
  \/ (b = 0 /\ contribution b = 0%Z)
  \/ (b > 0 /\ contribution b = 1%Z).
Proof.
  unfold contribution.
  destruct (total_order_T b 0) as [[Hlt | Heq] | Hgt]; auto.
Qed.

(** Decide every float comparison in the goal from the facts at hand. *)
Ltac compare_floats :=
  repeat match goal with
    | |- context [?x >? ?y] =>
        destruct (Rgtb_spec x y); try (exfalso; lra)
    | |- context [?x <? ?y] =>
        destruct (Rltb_spec x y); try (exfalso; lra)
    end.

(** ** The advisory *)

Lemma advisory_cases (p : R) :
  (p > 100 /\ advisory p = ([Render (st.warning HIGH_VOLATILITY)], Done tt))
  \/ (p < 60 /\ advisory p = ([Render (st.info LOW_VOLATILITY)], Done tt))
  \/ (60 <= p <= 100 /\ advisory p = ([], Done tt)).
Proof.
  unfold advisory.
  destruct (Rgtb_spec p 100); [left; auto|].
  destruct (Rltb_spec p 60); [right; left; auto|].
  right; right; split; [lra | reflexivity].
Qed.

Lemma advisory_done (p : R) : result (advisory p) = Done tt.
Proof.
  destruct (advisory_cases p) as [[_ ->] | [[_ ->] | [_ ->]]]; reflexivity.
Qed.

Lemma display_log (w : inputs) (p : R) :
  display w p = ((displayed w p ++ trace (advisory p))%list, Done tt).
Proof.
  unfold display.
  pose proof (advisory_done p) as H.
  destruct (advisory p) as [log r]; cbn in H; subst r.
  reflexivity.
Qed.

(** ** Runs *)

(** A run without a model stops right after the error box. *)
Lemma app_unavailable cache artifact w :
  fst (cache_resource cache (load_model artifact)) = (None, false) ->
  snd (app cache artifact w)
  = ((preamble ++ [Render (st.error MODEL_NOT_FOUND)])%list, Stopped).
Proof.
  unfold app.
  destruct (cache_resource cache (load_model artifact)) as [[model loaded] c].
  cbn [fst]; intros [= -> ->]. reflexivity.
Qed.

(** A run with a model and the button pressed: one call to the regressor,
    then the results, then the advisory; it ends normally. *)
Lemma app_predicts cache artifact m w :
  available cache artifact m ->
  predict_btn w = true ->
  snd (app cache artifact w)
  = ((preamble ++ trace (sidebar w)
      ++ Predict (input_df w)
         :: displayed w (np.expm1 (raw_score m w))
      ++ trace (advisory (np.expm1 (raw_score m w))))%list,
     Done tt).
Proof.
  unfold available, app.
  destruct (cache_resource cache (load_model artifact)) as [[model loaded] c].
  cbn [fst]; intros [= -> ->] Hbtn.
  unfold page. rewrite Hbtn. unfold main_logic, pred_log.
  change (xgb.predict m (input_df w)) with [raw_score m w].
  cbn [negb].
  change (bind ([Predict (input_df w)], Done (raw_score m w))
            (fun y => display w (np.expm1 y)))
    with (let (log', r) := display w (np.expm1 (raw_score m w)) in
          (([Predict (input_df w)] ++ log')%list, r)).
  rewrite display_log. reflexivity.
Qed.

(** ** What a predicting run shows *)

Section Predicting.

Variable cache : option (option xgb.XGBRegressor * bool).
Variable artifact : option xgb.XGBRegressor.
Variable m : xgb.XGBRegressor.
Variable w : inputs.
Hypothesis Hmodel : available cache artifact m.
Hypothesis Hclick : predict_btn w = true.

Local Abbreviation log := (trace (snd (app cache artifact w))).
Local Abbreviation target := (np.expm1 (raw_score m w)).

Lemma run_predictions : predictions log = [input_df w].
Proof.
  rewrite (app_predicts _ _ _ _ Hmodel Hclick).
  destruct (advisory_cases (np.expm1 (raw_score m w)))
    as [[_ ->] | [[_ ->] | [_ ->]]]; reflexivity.
Qed.

Lemma run_metrics :
  metrics log
  = [ ("ADR Strength", adr_val w);
      (SAFE_BANKING, safe_zone target);
      (AI_TARGET, target);
      (MAX_EXTENSION, max_zone target) ].
Proof.
  rewrite (app_predicts _ _ _ _ Hmodel Hclick).
  destruct (advisory_cases (np.expm1 (raw_score m w)))
    as [[_ ->] | [[_ ->] | [_ ->]]]; reflexivity.
Qed.

Lemma run_bias :
  markdown_after DIRECTION_BIAS log
  = Some ("<h3 style='color:" ++ bias_color w ++ ";'>"
          ++ bias_text w ++ "</h3>").
Proof.
  rewrite (app_predicts _ _ _ _ Hmodel Hclick).
  reflexivity.
Qed.

Lemma run_advisories :
  (target > 100
   /\ warnings log = [HIGH_VOLATILITY] /\ infos log = [SIDEBAR_NOTE])
  \/ (target < 60
      /\ warnings log = [] /\ infos log = [SIDEBAR_NOTE; LOW_VOLATILITY])
  \/ (60 <= target <= 100
      /\ warnings log = [] /\ infos log = [SIDEBAR_NOTE]).
Proof.
  rewrite (app_predicts _ _ _ _ Hmodel Hclick).
  fold target.
  destruct (advisory_cases target) as [[H ->] | [[H ->] | [H ->]]];
    [left | right; left | right; right]; repeat split; try apply H.
Qed.

End Predicting.

(** ** The feature builder *)

(** C1.  For every record of raw inputs the data frame built for the model
    has one row of eight cells in the fixed order range_mon, range_tue,
    range_wed, |body_mon|, |body_tue|, body_wed, adr, week; the two signed
    bodies enter through their absolute values, the six other inputs enter
    unchanged, and each cell sits under the column name of its field.
    ([run_predictions] adds that this frame, and nothing else, is what a
    predicting run hands to the regressor.) *)
Theorem C1_feature_vector (w : inputs) :
  input_df w
  = pd.mkDataFrame
      [[ PyFloat (r_mon w); PyFloat (r_tue w); PyFloat (r_wed w);
         PyFloat (Rabs (b_mon_raw w)); PyFloat (Rabs (b_tue_raw w));
         PyFloat (b_wed w); PyFloat (adr_val w); PyInt (week_num w) ]]
      features
  /\ combine (pd.columns (input_df w)) (row w)
     = [ ("Range_Monday", PyFloat (r_mon w));
         ("Range_Tuesday", PyFloat (r_tue w));
         ("Range_Wednesday", PyFloat (r_wed w));
         ("Body_Monday", PyFloat (Rabs (b_mon_raw w)));
         ("Body_Tuesday", PyFloat (Rabs (b_tue_raw w)));
         ("Body_Wednesday", PyFloat (b_wed w));
         ("ADR_5_Wednesday", PyFloat (adr_val w));
         ("Week_Num_Wednesday", PyInt (week_num w)) ]
  /\ List.length (row w) = 8%nat.
Proof.
  unfold input_df, row, features; cbn [pd.data pd.columns hd combine List.length].
  repeat split.
Qed.

(** The absolute values are what the name says. *)
Lemma body_cells_nonnegative (w : inputs) :
  0 <= Rabs (b_mon_raw w) /\ 0 <= Rabs (b_tue_raw w)
  /\ (0 <= b_mon_raw w -> Rabs (b_mon_raw w) = b_mon_raw w)
  /\ (b_mon_raw w < 0 -> Rabs (b_mon_raw w) = - b_mon_raw w).
Proof.
  repeat split; try apply Rabs_pos.
  - apply Rabs_pos_eq.
  - apply Rabs_left.
Qed.

(** ** The inverse transform, in exact arithmetic *)

Lemma expm1_log1p (y : R) : -1 < y -> np.expm1 (ln (1 + y)) = y.
Proof. intros Hy. unfold np.expm1. rewrite exp_ln; lra. Qed.


(** The specification's example: a model that answers ln(101) gives a
    target of 100 pips. *)
Example target_of_ln_101 : np.expm1 (ln 101) = 100.
Proof. unfold np.expm1. rewrite exp_ln; lra. Qed.

(** ** The bias *)

(** Split on the sign of a body and bring its contribution along. *)
Ltac by_sign b :=
  destruct (contribution_cases b) as [[? ->] | [[? ->] | [? ->]]].

Lemma bias_score_sum (b_mon b_tue : R) :
  bias_score b_mon b_tue = (contribution b_mon + contribution b_tue)%Z.
Proof.
  unfold bias_score.
  by_sign b_mon; by_sign b_tue; compare_floats; reflexivity.
Qed.

Lemma contribution_opp (b : R) : contribution (- b) = (- contribution b)%Z.
Proof.
  destruct (contribution_cases b) as [[H ->] | [[H ->] | [H ->]]];
    destruct (contribution_cases (- b)) as [[H' ->] | [[H' ->] | [H' ->]]];
    try reflexivity; exfalso; lra.
Qed.

Lemma contribution_range (b : R) :
  (-1 <= contribution b <= 1)%Z.
Proof. by_sign b; lia. Qed.

(** The label as a function of the score, case by case. *)
Lemma bias_label (s : Z) :
  ((1 <= s)%Z /\ bias s = (BULLISH, "#4ade80"))
  \/ ((s <= -1)%Z /\ bias s = (BEARISH, "#f87171"))
  \/ (s = 0%Z /\ bias s = (NEUTRAL, "#facc15")).
Proof.
  unfold bias.
  destruct (Z.geb_spec s 1) as [H1 | H1]; [left; split; [lia | reflexivity]|].
  destruct (Z.leb_spec s (-1)) as [H2 | H2];
    [right; left; split; [lia | reflexivity]|].
  right; right; split; [lia | reflexivity].
Qed.

Lemma labels_distinct :
  BULLISH <> BEARISH /\ BULLISH <> NEUTRAL /\ BEARISH <> NEUTRAL.
Proof. repeat split; discriminate. Qed.

(** C4.  The score is the sum of the contributions of the two bodies (1
    for a strictly positive body, -1 for a strictly negative one, nothing
    for a body of exactly 0), so it is one of -2, -1, 0, 1, 2; the label is
    BULLISH from 1 up, BEARISH from -1 down and NEUTRAL at 0.  The rule is
    a function defined on all pairs of reals: every input has exactly one
    score and one label. *)
Theorem C4_bias_rule (b_mon b_tue : R) :
  let s := bias_score b_mon b_tue in
  let label := fst (bias s) in
  s = (contribution b_mon + contribution b_tue)%Z
  /\ In s [-2; -1; 0; 1; 2]%Z
  /\ (((1 <= s)%Z /\ label = BULLISH)
      \/ ((s <= -1)%Z /\ label = BEARISH)
      \/ (s = 0%Z /\ label = NEUTRAL)).
Proof.
  intros s label. subst s label.
  rewrite bias_score_sum.
  split; [reflexivity|]. split.
  - pose proof (contribution_range b_mon). pose proof (contribution_range b_tue).
    cbn [In]. lia.
  - destruct (bias_label (contribution b_mon + contribution b_tue))
      as [[H ->] | [[H ->] | [H ->]]]; cbn [fst]; auto.
Qed.

(** C6.  Negating both bodies negates the score, so BULLISH and BEARISH
    change places and NEUTRAL stays; and the label is NEUTRAL exactly when
    the two contributions add up to 0. *)
Theorem C6_negation_symmetry (b_mon b_tue : R) :
  let label := fst (bias (bias_score b_mon b_tue)) in
  let label' := fst (bias (bias_score (- b_mon) (- b_tue))) in
  bias_score (- b_mon) (- b_tue) = (- bias_score b_mon b_tue)%Z
  /\ (label = BULLISH <-> label' = BEARISH)
  /\ (label = BEARISH <-> label' = BULLISH)
  /\ (label = NEUTRAL <-> label' = NEUTRAL)
  /\ (label = NEUTRAL <-> (contribution b_mon + contribution b_tue)%Z = 0%Z).
Proof.
  intros label label'. subst label label'.
  rewrite !bias_score_sum, !contribution_opp.
  set (s := (contribution b_mon + contribution b_tue)%Z).
  replace (- contribution b_mon + - contribution b_tue)%Z with (- s)%Z
    by (unfold s; lia).
  destruct labels_distinct as (Hbb & Hbn & Hrn).
  split; [reflexivity|].
  destruct (bias_label s) as [[H ->] | [[H ->] | [H ->]]];
    destruct (bias_label (- s)) as [[H' ->] | [[H' ->] | [H' ->]]];
    cbn [fst]; try (exfalso; lia);
    repeat split; intros; try reflexivity; try congruence; try lia.
Qed.

(** ** Without a model *)

Lemma app_cache cache artifact w :
  fst (app cache artifact w)
  = snd (cache_resource cache (load_model artifact)).
Proof.
  unfold app.
  destruct (cache_resource cache (load_model artifact)) as [[model loaded] c].
  reflexivity.
Qed.

(** Once the cache holds the failed load, every later run is a refusal,
    whatever has appeared on disk in the meantime. *)
Lemma serve_unavailable
    (runs : list (option xgb.XGBRegressor * inputs)) :
  serve (Some (None, false)) runs = map (fun _ => refusal) runs.
Proof.
  induction runs as [| [artifact w] rest IH]; [reflexivity|].
  cbn [serve map].
  pose proof (app_cache (Some (None, false)) artifact w) as Hc.
  pose proof (app_unavailable (Some (None, false)) artifact w eq_refl) as Ho.
  destruct (app (Some (None, false)) artifact w) as [c out].
  cbn [fst snd] in Hc, Ho. subst c out.
  cbn [cache_resource snd]. rewrite IH. reflexivity.
Qed.

Lemma process_unavailable (w0 : inputs)
    (later : list (option xgb.XGBRegressor * inputs)) :
  process ((None, w0) :: later) = map (fun _ => refusal) ((None, w0) :: later).
Proof.
  unfold process. cbn [serve map].
  pose proof (app_cache None None w0) as Hc.
  pose proof (app_unavailable None None w0 eq_refl) as Ho.
  destruct (app None None w0) as [c out].
  cbn [fst snd] in Hc, Ho. subst c out.
  cbn [cache_resource load_model snd]. rewrite serve_unavailable. reflexivity.
Qed.

(** C5.  When the artifact does not load at the first run of the process,
    every run of the process, the first and all later ones, whatever the
    widgets hold and whatever is on disk by then, shows the model-not-found
    error and stops there: no frame is handed to the regressor and no
    metric is shown. *)
Theorem C5_model_unavailable (w0 : inputs)
    (later : list (option xgb.XGBRegressor * inputs)) :
  let outs := process ((None, w0) :: later) in
  List.length outs = S (List.length later)
  /\ Forall (fun out =>
               result out = Stopped
               /\ In (Render (st.error MODEL_NOT_FOUND)) (trace out)
               /\ predictions (trace out) = []
               /\ metrics (trace out) = []
               /\ warnings (trace out) = []
               /\ infos (trace out) = []) outs.
Proof.
  intros outs. subst outs. rewrite process_unavailable. split.
  - rewrite length_map. reflexivity.
  - apply Forall_forall. intros out Hin.
    apply in_map_iff in Hin. destruct Hin as (_ & <- & _).
    unfold refusal, preamble; cbn.
    repeat split; auto 10.
Qed.

(** The cache is what makes the refusal last: a model put on disk after the
    failed start is never picked up. *)
Example late_artifact_is_ignored (m : xgb.XGBRegressor) :
  process [(None, default_inputs); (Some m, default_click)]
  = [refusal; refusal].
Proof. apply process_unavailable. Qed.

(** ** The bias does not look at the rest *)

(** C7.  Two predicting runs that agree on the two signed bodies show the
    same bias heading, whatever the six other inputs, the models and hence
    the predicted values are; the heading is the one made from the label
    and colour of the two bodies. *)
Theorem C7_bias_noninterference cache1 artifact1 m1 w1 cache2 artifact2 m2 w2 :
  available cache1 artifact1 m1 ->
  available cache2 artifact2 m2 ->
  predict_btn w1 = true ->
  predict_btn w2 = true ->
  b_mon_raw w1 = b_mon_raw w2 ->
  b_tue_raw w1 = b_tue_raw w2 ->
  bias_text w1 = bias_text w2
  /\ bias_color w1 = bias_color w2
  /\ markdown_after DIRECTION_BIAS (trace (snd (app cache1 artifact1 w1)))
     = markdown_after DIRECTION_BIAS (trace (snd (app cache2 artifact2 w2)))
  /\ markdown_after DIRECTION_BIAS (trace (snd (app cache1 artifact1 w1)))
     = Some ("<h3 style='color:"
             ++ snd (bias (bias_score (b_mon_raw w1) (b_tue_raw w1)))
             ++ ";'>"
             ++ fst (bias (bias_score (b_mon_raw w1) (b_tue_raw w1)))
             ++ "</h3>").
Proof.
  intros H1 H2 Hc1 Hc2 Hmon Htue.
  rewrite (run_bias _ _ _ _ H1 Hc1), (run_bias _ _ _ _ H2 Hc2).
  unfold bias_text, bias_color. rewrite Hmon, Htue. auto.
Qed.

Lemma C7_bias_noninterference_witness :
  bias_text default_click = bias_text other_click
  /\ bias_color default_click = bias_color other_click
  /\ markdown_after DIRECTION_BIAS
       (trace (snd (app None (Some (constant_model 0)) default_click)))
     = markdown_after DIRECTION_BIAS
         (trace (snd (app (Some (Some (constant_model 5), true)) None
                        other_click)))
  /\ markdown_after DIRECTION_BIAS
       (trace (snd (app None (Some (constant_model 0)) default_click)))
     = Some ("<h3 style='color:"
             ++ snd (bias (bias_score (b_mon_raw default_click)
                             (b_tue_raw default_click)))
             ++ ";'>"
             ++ fst (bias (bias_score (b_mon_raw default_click)
                             (b_tue_raw default_click)))
             ++ "</h3>").
Proof.
  apply (C7_bias_noninterference
           None (Some (constant_model 0)) (constant_model 0) default_click
           (Some (Some (constant_model 5), true)) None (constant_model 5)
           other_click); reflexivity.
Defined.

(** ** The advisories *)

Lemma exp_ln_201 : np.expm1 (ln 201) = 200.
Proof. unfold np.expm1. rewrite exp_ln; lra. Qed.

Lemma exp_ln_61 : np.expm1 (ln 61) = 60.
Proof. unfold np.expm1. rewrite exp_ln; lra. Qed.

Lemma exp_ln_41 : np.expm1 (ln 41) = 40.
Proof. unfold np.expm1. rewrite exp_ln; lra. Qed.

Lemma expm1_0 : np.expm1 0 = 0.
Proof. unfold np.expm1. rewrite exp_0; lra. Qed.

(** The target a predicting run shows. *)
Lemma run_metrics_target cache artifact m w :
  available cache artifact m ->
  predict_btn w = true ->
  lookup AI_TARGET (metrics (trace (snd (app cache artifact w))))
  = Some (np.expm1 (raw_score m w)).
Proof.
  intros Hmodel Hclick.
  rewrite (run_metrics _ _ _ _ Hmodel Hclick). reflexivity.
Qed.

(** The target a predicting run shows is the one computed from the score. *)
Lemma shown_target cache artifact m w target_pips :
  available cache artifact m ->
  predict_btn w = true ->
  lookup AI_TARGET (metrics (trace (snd (app cache artifact w))))
  = Some target_pips ->
  target_pips = np.expm1 (raw_score m w).
Proof.
  intros Hmodel Hclick.
  rewrite (run_metrics _ _ _ _ Hmodel Hclick).
  cbn. intros [= <-]. reflexivity.
Qed.

(** C8.  In a run that predicts and shows the target target_pips, the
    high-volatility warning is on the page when target_pips > 100 and the
    low-volatility note is on the page when target_pips < 60. *)
Theorem C8_advisories cache artifact m w target_pips :
  available cache artifact m ->
  predict_btn w = true ->
  lookup AI_TARGET (metrics (trace (snd (app cache artifact w))))
  = Some target_pips ->
  (target_pips > 100 ->
   In HIGH_VOLATILITY (warnings (trace (snd (app cache artifact w)))))
  /\ (target_pips < 60 ->
      In LOW_VOLATILITY (infos (trace (snd (app cache artifact w))))).
Proof.
  intros Hmodel Hclick Hshown.
  rewrite (shown_target _ _ _ _ _ Hmodel Hclick Hshown).
  destruct (run_advisories _ _ _ _ Hmodel Hclick)
    as [(Ht & -> & ->) | [(Ht & -> & ->) | (Ht & -> & ->)]];
    split; intros H; cbn [In]; auto; exfalso; lra.
Qed.

Lemma C8_advisories_witness :
  In HIGH_VOLATILITY
    (warnings (trace (snd (app None (Some (constant_model (ln 201)))
                             default_click))))
  /\ In LOW_VOLATILITY
       (infos (trace (snd (app None (Some (constant_model (ln 41)))
                             default_click)))).
Proof.
  split.
  - apply (proj1 (C8_advisories None (Some (constant_model (ln 201)))
                    (constant_model (ln 201)) default_click 200
                    eq_refl eq_refl
                    (eq_trans
                       (run_metrics_target None (Some (constant_model (ln 201)))
                          (constant_model (ln 201)) default_click
                          eq_refl eq_refl)
                       (f_equal Some exp_ln_201)))).
    lra.
  - apply (proj2 (C8_advisories None (Some (constant_model (ln 41)))
                    (constant_model (ln 41)) default_click 40
                    eq_refl eq_refl
                    (eq_trans
                       (run_metrics_target None (Some (constant_model (ln 41)))
                          (constant_model (ln 41)) default_click
                          eq_refl eq_refl)
                       (f_equal Some exp_ln_41)))).
    lra.
Defined.

(** C9.  In a run that predicts and shows the target target_pips: when
    60 <= target_pips <= 100, the two ends included, the page carries no
    warning at all and no note but the one of the sidebar, so neither
    advisory; and whatever the target, the two advisories are never both on
    the page. *)
Theorem C9_quiet_band cache artifact m w target_pips :
  available cache artifact m ->
  predict_btn w = true ->
  lookup AI_TARGET (metrics (trace (snd (app cache artifact w))))
  = Some target_pips ->
  (60 <= target_pips <= 100 ->
   warnings (trace (snd (app cache artifact w))) = []
   /\ infos (trace (snd (app cache artifact w))) = [SIDEBAR_NOTE]
   /\ ~ In LOW_VOLATILITY (infos (trace (snd (app cache artifact w)))))
  /\ ~ (In HIGH_VOLATILITY (warnings (trace (snd (app cache artifact w))))
        /\ In LOW_VOLATILITY (infos (trace (snd (app cache artifact w))))).
Proof.
  intros Hmodel Hclick Hshown.
  rewrite (shown_target _ _ _ _ _ Hmodel Hclick Hshown).
  assert (Hnote : LOW_VOLATILITY <> SIDEBAR_NOTE) by discriminate.
  destruct (run_advisories _ _ _ _ Hmodel Hclick)
    as [(Ht & -> & ->) | [(Ht & -> & ->) | (Ht & -> & ->)]]; split.
  - intros H; exfalso; lra.
  - cbn [In]. intros [_ [H | []]]. apply Hnote; symmetry; exact H.
  - intros H; exfalso; lra.
  - cbn [In]. intros [[] _].
  - intros _. repeat split. cbn [In]. intros [H | []].
    apply Hnote; symmetry; exact H.
  - cbn [In]. intros [[] _].
Qed.

Lemma C9_quiet_band_witness :
  (warnings (trace (snd (app None (Some (constant_model (ln 61)))
                          default_click))) = []
   /\ infos (trace (snd (app None (Some (constant_model (ln 61)))
                           default_click))) = [SIDEBAR_NOTE]
   /\ ~ In LOW_VOLATILITY
          (infos (trace (snd (app None (Some (constant_model (ln 61)))
                                default_click)))))
  /\ (warnings (trace (snd (app None (Some (constant_model (ln 101)))
                             default_click))) = []
      /\ infos (trace (snd (app None (Some (constant_model (ln 101)))
                              default_click))) = [SIDEBAR_NOTE]
      /\ ~ In LOW_VOLATILITY
             (infos (trace (snd (app None (Some (constant_model (ln 101)))
                                   default_click))))).
Proof.
  split.
  - apply (proj1 (C9_quiet_band None (Some (constant_model (ln 61)))
                    (constant_model (ln 61)) default_click 60
                    eq_refl eq_refl
                    (eq_trans
                       (run_metrics_target None (Some (constant_model (ln 61)))
                          (constant_model (ln 61)) default_click
                          eq_refl eq_refl)
                       (f_equal Some exp_ln_61)))).
    lra.
  - apply (proj1 (C9_quiet_band None (Some (constant_model (ln 101)))
                    (constant_model (ln 101)) default_click 100
                    eq_refl eq_refl
                    (eq_trans
                       (run_metrics_target None (Some (constant_model (ln 101)))
                          (constant_model (ln 101)) default_click
                          eq_refl eq_refl)
                       (f_equal Some target_of_ln_101)))).
    lra.
Defined.

(** ** The band is not clamped *)



(** The case the claim names: a regressor answering 0 shows a target of 0
    and a safe figure of -18. *)
Example safe_zone_of_zero :
  metrics (trace (snd (app None (Some (constant_model 0)) default_click)))
  = [ ("ADR Strength", est_adr default_click);
      (SAFE_BANKING, safe_zone (np.expm1 0));
      (AI_TARGET, np.expm1 0);
      (MAX_EXTENSION, max_zone (np.expm1 0)) ]
  /\ np.expm1 0 = 0
  /\ safe_zone (np.expm1 0) = -18.
Proof.
  split; [apply (run_metrics None (Some (constant_model 0))
                   (constant_model 0) default_click); reflexivity|].
  rewrite expm1_0. unfold safe_zone, median_error. split; lra.
Qed.

(** * Further properties of the script *)

(** ** The cache over the life of the process *)

(** Once the cache is filled, what is on disk no longer matters. *)
Lemma app_cached_ignores_disk v artifact artifact' w :
  app (Some v) artifact w = app (Some v) artifact' w.
Proof. reflexivity. Qed.

(** A run on a cache filled from [a0] shows what a first run finding [a0]
    shows, and leaves the cache as it is. *)
Lemma app_after_first a0 artifact w :
  app (Some (load_model a0)) artifact w
  = (Some (load_model a0), snd (app None a0 w)).
Proof.
  unfold app. cbn [cache_resource].
  destruct (load_model a0) as [model loaded]. reflexivity.
Qed.

Lemma app_first a0 w :
  fst (app None a0 w) = Some (load_model a0).
Proof. rewrite app_cache. reflexivity. Qed.

Lemma serve_after_first a0
    (runs : list (option xgb.XGBRegressor * inputs)) :
  serve (Some (load_model a0)) runs
  = map (fun r => snd (app None a0 (snd r))) runs.
Proof.
  induction runs as [| [artifact w] rest IH]; [reflexivity|].
  cbn [serve map snd]. rewrite app_after_first, IH. reflexivity.
Qed.

Lemma process_after_first a0 w0
    (later : list (option xgb.XGBRegressor * inputs)) :
  process ((a0, w0) :: later)
  = map (fun r => snd (app None a0 (snd r))) ((a0, w0) :: later).
Proof.
  unfold process. cbn [serve map snd].
  pose proof (app_first a0 w0) as Hc.
  destruct (app None a0 w0) as [c out]. cbn [fst] in Hc. subst c.
  cbn [snd]. rewrite serve_after_first. reflexivity.
Qed.

(** X1.  The artifact is read once: whatever is on disk at the first run of
    the process decides every run.  Each run shows exactly what a first run
    with its own widget values and the first artifact would show; a file
    that appears, changes or disappears later has no effect. *)
Theorem X1_artifact_read_once a0 w0
    (later later' : list (option xgb.XGBRegressor * inputs)) :
  map snd later = map snd later' ->
  process ((a0, w0) :: later) = process ((a0, w0) :: later')
  /\ process ((a0, w0) :: later)
     = map (fun r => snd (app None a0 (snd r))) ((a0, w0) :: later).
Proof.
  intros Hsame. split; [|apply process_after_first].
  rewrite !process_after_first. cbn [map]. f_equal.
  rewrite <- !(map_map snd (fun w => snd (app None a0 w))).
  rewrite Hsame. reflexivity.
Qed.

Lemma X1_artifact_read_once_witness :
  process [(Some (constant_model 0), default_inputs);
           (None, default_click)]
  = process [(Some (constant_model 0), default_inputs);
             (Some (constant_model 5), default_click)]
  /\ process [(Some (constant_model 0), default_inputs);
              (None, default_click)]
     = map (fun r => snd (app None (Some (constant_model 0)) (snd r)))
         [(Some (constant_model 0), default_inputs);
          (None, default_click)].
Proof.
  apply (X1_artifact_read_once (Some (constant_model 0)) default_inputs
           [(None, default_click)]
           [(Some (constant_model 5), default_click)]).
  reflexivity.
Defined.

(** ** The prediction does not see the direction of the candles *)

Lemma input_df_with_bodies (w : inputs) (b_mon b_tue b_mon' b_tue' : R) :
  Rabs b_mon = Rabs b_mon' ->
  Rabs b_tue = Rabs b_tue' ->
  input_df (with_bodies w b_mon b_tue)
  = input_df (with_bodies w b_mon' b_tue').
Proof.
  intros Hm Ht. unfold input_df, with_bodies, adr_val, est_adr.
  cbn [r_mon r_tue r_wed b_mon_raw b_tue_raw b_wed adr_entry week_num].
  rewrite Hm, Ht. reflexivity.
Qed.

(** X5.  The figures depend on the two signed bodies only through their
    absolute values: two predicting runs on the same page whose Monday and
    Tuesday bodies agree in size, whatever their signs, hand the same frame
    to the regressor and show the same four metrics. *)
Theorem X5_figures_blind_to_direction cache artifact m w
    (b_mon b_tue b_mon' b_tue' : R) :
  available cache artifact m ->
  predict_btn w = true ->
  Rabs b_mon = Rabs b_mon' ->
  Rabs b_tue = Rabs b_tue' ->
  predictions
    (trace (snd (app cache artifact (with_bodies w b_mon b_tue))))
  = predictions
      (trace (snd (app cache artifact (with_bodies w b_mon' b_tue'))))
  /\ metrics
       (trace (snd (app cache artifact (with_bodies w b_mon b_tue))))
     = metrics
         (trace (snd (app cache artifact (with_bodies w b_mon' b_tue')))).
Proof.
  intros Hmodel Hclick Hm Ht.
  rewrite (run_predictions _ _ _ (with_bodies w b_mon b_tue) Hmodel Hclick).
  rewrite (run_predictions _ _ _ (with_bodies w b_mon' b_tue') Hmodel Hclick).
  rewrite (run_metrics _ _ _ (with_bodies w b_mon b_tue) Hmodel Hclick).
  rewrite (run_metrics _ _ _ (with_bodies w b_mon' b_tue') Hmodel Hclick).
  unfold raw_score, row.
  rewrite (input_df_with_bodies w b_mon b_tue b_mon' b_tue' Hm Ht).
  split; reflexivity.
Qed.

Lemma X5_figures_blind_to_direction_witness :
  predictions
    (trace (snd (app None (Some (constant_model 0))
                   (with_bodies default_click 10 (-20)))))
  = predictions
      (trace (snd (app None (Some (constant_model 0))
                     (with_bodies default_click (-10) 20))))
  /\ metrics
       (trace (snd (app None (Some (constant_model 0))
                      (with_bodies default_click 10 (-20)))))
     = metrics
         (trace (snd (app None (Some (constant_model 0))
                        (with_bodies default_click (-10) 20)))).
Proof.
  apply (X5_figures_blind_to_direction None (Some (constant_model 0))
           (constant_model 0) default_click 10 (-20) (-10) 20
           eq_refl eq_refl).
  - rewrite (Rabs_pos_eq 10) by lra. rewrite (Rabs_left (-10)) by lra. lra.
  - rewrite (Rabs_pos_eq 20) by lra. rewrite (Rabs_left (-20)) by lra. lra.
Defined.

(** ** The figures *)

Lemma expm1_gt_iff (y c : R) :
  0 < c -> (np.expm1 y > c - 1 <-> y > ln c).
Proof.
  intros Hc. unfold np.expm1. split; intros H.
  - apply exp_lt_inv. rewrite exp_ln by assumption. lra.
  - apply exp_increasing in H. rewrite exp_ln in H by assumption. lra.
Qed.

Lemma expm1_lt_iff (y c : R) :
  0 < c -> (np.expm1 y < c - 1 <-> y < ln c).
Proof.
  intros Hc. unfold np.expm1. split; intros H.
  - apply exp_lt_inv. rewrite exp_ln by assumption. lra.
  - apply exp_increasing in H. rewrite exp_ln in H by assumption. lra.
Qed.

(** X7.  The advisories read on the regressor's own scale: the
    high-volatility warning is on the page exactly when the score is above
    ln(101), the low-volatility note exactly when it is below ln(61). *)
Theorem X7_advisories_in_log_space cache artifact m w :
  available cache artifact m ->
  predict_btn w = true ->
  (In HIGH_VOLATILITY (warnings (trace (snd (app cache artifact w))))
   <-> raw_score m w > ln 101)
  /\ (In LOW_VOLATILITY (infos (trace (snd (app cache artifact w))))
      <-> raw_score m w < ln 61).
Proof.
  intros Hmodel Hclick.
  assert (Hnote : LOW_VOLATILITY <> SIDEBAR_NOTE) by discriminate.
  pose proof (expm1_gt_iff (raw_score m w) 101 ltac:(lra)) as Hhi.
  pose proof (expm1_lt_iff (raw_score m w) 61 ltac:(lra)) as Hlo.
  replace (101 - 1) with 100 in Hhi by lra.
  replace (61 - 1) with 60 in Hlo by lra.
  destruct (run_advisories _ _ _ _ Hmodel Hclick)
    as [(Ht & -> & ->) | [(Ht & -> & ->) | (Ht & -> & ->)]];
    cbn [In]; (split; split; intros H).
  - apply Hhi; assumption.
  - auto.
  - destruct H as [H | []]. exfalso; apply Hnote; symmetry; exact H.
  - apply Hlo in H. exfalso; lra.
  - destruct H.
  - apply Hhi in H. exfalso; lra.
  - apply Hlo; assumption.
  - auto.
  - destruct H.
  - apply Hhi in H. exfalso; lra.
  - destruct H as [H | []]. exfalso; apply Hnote; symmetry; exact H.
  - apply Hlo in H. exfalso; lra.
Qed.

Lemma X7_advisories_in_log_space_witness :
  (In HIGH_VOLATILITY
     (warnings (trace (snd (app None (Some (constant_model (ln 201)))
                              default_click))))
   <-> raw_score (constant_model (ln 201)) default_click > ln 101)
  /\ (In LOW_VOLATILITY
        (infos (trace (snd (app None (Some (constant_model (ln 201)))
                              default_click))))
      <-> raw_score (constant_model (ln 201)) default_click < ln 61).
Proof.
  apply (X7_advisories_in_log_space None (Some (constant_model (ln 201)))
           (constant_model (ln 201)) default_click eq_refl eq_refl).
Defined.





(** ** The bias, read on the candles *)

(** X9.  The label in terms of the two candles: BULLISH exactly when one
    body is positive and the other is not negative, BEARISH exactly when
    one is negative and the other is not positive, NEUTRAL exactly when
    both are flat or they point in opposite directions. *)
Theorem X9_label_by_candles (b_mon b_tue : R) :
  let label := fst (bias (bias_score b_mon b_tue)) in
  (label = BULLISH
   <-> (b_mon > 0 /\ b_tue >= 0) \/ (b_mon >= 0 /\ b_tue > 0))
  /\ (label = BEARISH
      <-> (b_mon < 0 /\ b_tue <= 0) \/ (b_mon <= 0 /\ b_tue < 0))
  /\ (label = NEUTRAL
      <-> (b_mon = 0 /\ b_tue = 0)
          \/ (b_mon > 0 /\ b_tue < 0) \/ (b_mon < 0 /\ b_tue > 0)).
Proof.
  intros label. subst label. rewrite bias_score_sum.
  destruct labels_distinct as (Hbb & Hbn & Hrn).
  by_sign b_mon; by_sign b_tue; cbn;
    repeat split; intros; try reflexivity; try congruence;
    try (exfalso; lra); try lra.
Qed.

(** X10.  The score never goes down when a body goes up. *)
Theorem X10_bias_score_monotone (b_mon b_tue b_mon' b_tue' : R) :
  b_mon <= b_mon' ->
  b_tue <= b_tue' ->
  (bias_score b_mon b_tue <= bias_score b_mon' b_tue')%Z.
Proof.
  intros Hm Ht. rewrite !bias_score_sum.
  assert (Hmono : forall x y, x <= y ->
                              (contribution x <= contribution y)%Z).
  { intros x y Hxy. by_sign x; by_sign y; try lia; exfalso; lra. }
  pose proof (Hmono _ _ Hm). pose proof (Hmono _ _ Ht). lia.
Qed.

Lemma X10_bias_score_monotone_witness :
  (bias_score (-20) 0 <= bias_score 10 30)%Z.
Proof.
  apply (X10_bias_score_monotone (-20) 0 10 30); lra.
Defined.

(** X11.  The score reads directions, not sizes: stretching either body by
    a positive factor leaves it unchanged. *)
Theorem X11_bias_score_ignores_size (k l b_mon b_tue : R) :
  0 < k ->
  0 < l ->
  bias_score (k * b_mon) (l * b_tue) = bias_score b_mon b_tue.
Proof.
  intros Hk Hl. rewrite !bias_score_sum.
  assert (Hscale : forall c x, 0 < c ->
                               contribution (c * x) = contribution x).
  { intros c x Hc.
    destruct (contribution_cases x) as [[Hx ->] | [[Hx ->] | [Hx ->]]];
      destruct (contribution_cases (c * x))
        as [[Hcx ->] | [[Hcx ->] | [Hcx ->]]];
      try reflexivity; exfalso; nra. }
  rewrite (Hscale k b_mon Hk), (Hscale l b_tue Hl). reflexivity.
Qed.

Lemma X11_bias_score_ignores_size_witness :
  bias_score (100 * 10) (3 * -20) = bias_score 10 (-20).
Proof.
  apply (X11_bias_score_ignores_size 100 3 10 (-20)); lra.
Defined.


(** * The arithmetic on float32 *)

(** ** What a float32 can be *)






(** ** What exp can be *)






(** ** The target *)




(** ** The band *)







(** The scenario of the specification on whole pips: a target of 60 gives
    a safe figure of 42 and a max figure of 78. *)
Example band_of_60 :
  F32.safe_zone (F32.of_Z 60) = F32.of_Z 42
  /\ F32.max_zone (F32.of_Z 60) = F32.of_Z 78.
Proof. split; vm_compute; reflexivity. Qed.

(** The instance of the unclamped band on float32: a target of 0 gives a
    safe figure of -18. *)
Example band_of_0 :
  F32.safe_zone (S754_zero false) = F32.of_Z (-18)
  /\ SFltb (F32.safe_zone (S754_zero false)) (S754_zero false) = true.
Proof. split; vm_compute; reflexivity. Qed.
